(** * A model of [WMSClient] (src/server/utils.py)

    The BGS soil-data WMS client: GetCapabilities fetch, XML parsing into a
    layer catalog, the one-hour capabilities cache, GetMap / GetFeatureInfo
    URL building, the layer index and the coordinate converter.

    Modelling choices:
    - Python [str] is a Rocq [string] (a byte string); [str.lower] is the ASCII
      lower-casing of those bytes.
    - Python [float] is the primitive binary64 [float]; [x * 111319.9] and
      [x / 111319.9] are the IEEE operations Python performs.
    - [datetime.now()] is an explicit clock reading in microseconds ([Z]),
      one argument per call site.
    - The transport ([urllib.request.urlopen(url).read()]), the XML parser
      ([ET.fromstring]), UTF-8 decoding and float formatting ([str(float)]) are
      library code; they are Section variables.
    - An ElementTree element is [element]: tag (with its "{namespace}" prefix
      as ElementTree writes it), attributes, [text] ([None] when the element
      has no text) and children. *)

From Stdlib Require Import String Ascii List ZArith Bool Lia Floats.
Import ListNotations.

Set Warnings "-inexact-float,-register-all".

(** ** Python runtime fragments *)

Inductive py_exn : Type :=
| URLError (msg : string)
| ParseError (msg : string)
| AttributeError (msg : string).

Inductive Result (A : Type) : Type :=
| Ok (a : A)
| Err (e : py_exn).
Arguments Ok {A} a.
Arguments Err {A} e.

Definition bind {A B} (r : Result A) (f : A -> Result B) : Result B :=
  match r with Ok a => f a | Err e => Err e end.

Notation "x <- c1 ;; c2" := (bind c1 (fun x => c2))
  (at level 61, c1 at next level, right associativity).

Definition bytes := string.

Local Open Scope string_scope.

(** [str.lower] on the ASCII range. *)
Definition ascii_lower (c : ascii) : ascii :=
  let n := nat_of_ascii c in
  if (65 <=? n)%nat && (n <=? 90)%nat then ascii_of_nat (n + 32) else c.

Fixpoint str_lower (s : string) : string :=
  match s with
  | EmptyString => EmptyString
  | String c s' => String (ascii_lower c) (str_lower s')
  end.

(** Python's [q in s] for strings: [q] occurs as a substring of [s]. *)
Fixpoint py_in (q s : string) : bool :=
  if String.prefix q s then true
  else match s with
       | EmptyString => false
       | String _ s' => py_in q s'
       end.

(** Truthiness of an optional string ([None] and [""] are falsy). *)
Definition truthy (t : option string) : bool :=
  match t with
  | Some s => negb (String.eqb s "")
  | None => false
  end.

(** [str(int)]. *)
Fixpoint nat_digits (fuel : nat) (n : Z) (acc : string) : string :=
  match fuel with
  | O => acc
  | S f =>
      let acc' := String (ascii_of_nat (48 + Z.to_nat (n mod 10))) acc in
      if (n / 10 =? 0)%Z then acc' else nat_digits f (n / 10) acc'
  end.

Definition py_str_int (z : Z) : string :=
  let fuel := S (Z.to_nat (Z.log2 (Z.abs z))) in
  if (z <? 0)%Z then "-" ++ nat_digits fuel (- z) "" else nat_digits fuel z "".

(** A Python dict with string keys, in insertion order; [d[k] = v] updates
    the entry in place when [k] is present and appends it otherwise. *)
Definition dict (V : Type) := list (string * V).

Fixpoint dict_set {V} (k : string) (v : V) (d : dict V) : dict V :=
  match d with
  | [] => [(k, v)]
  | (k', v') :: d' =>
      if String.eqb k k' then (k, v) :: d' else (k', v') :: dict_set k v d'
  end.

Fixpoint dict_get {V} (k : string) (d : dict V) : option V :=
  match d with
  | [] => None
  | (k', v) :: d' => if String.eqb k k' then Some v else dict_get k d'
  end.

(** ** URL encoding ([urllib.parse.urlencode] with [quote_plus]) *)

Definition hex_digit (n : nat) : ascii :=
  if (n <? 10)%nat then ascii_of_nat (48 + n) else ascii_of_nat (55 + n).

Definition always_safe (c : ascii) : bool :=
  let n := nat_of_ascii c in
  ((48 <=? n)%nat && (n <=? 57)%nat) || ((65 <=? n)%nat && (n <=? 90)%nat)
  || ((97 <=? n)%nat && (n <=? 122)%nat)
  || (n =? 95)%nat || (n =? 46)%nat || (n =? 45)%nat || (n =? 126)%nat.

Fixpoint quote_plus (s : string) : string :=
  match s with
  | EmptyString => EmptyString
  | String c s' =>
      let n := nat_of_ascii c in
      if always_safe c then String c (quote_plus s')
      else if (n =? 32)%nat then String "+" (quote_plus s')
      else String "%" (String (hex_digit (n / 16)) (String (hex_digit (n mod 16))
             (quote_plus s')))
  end.

(** Parameter values: [str] or [int] ([urlencode] applies [str] to the latter). *)
Inductive pvalue : Type :=
| PStr (s : string)
| PInt (z : Z).

Definition pvalue_str (v : pvalue) : string :=
  match v with PStr s => s | PInt z => py_str_int z end.

Definition urlencode (params : dict pvalue) : string :=
  String.concat "&"
    (map (fun kv => quote_plus (fst kv) ++ "=" ++ quote_plus (pvalue_str (snd kv)))
       params).

(** ** ElementTree elements *)

Inductive element : Type :=
| Element (tag : string) (attrib : list (string * string)) (text : option string)
          (children : list element).

Definition el_tag (e : element) : string := match e with Element t _ _ _ => t end.
Definition el_attrib (e : element) := match e with Element _ a _ _ => a end.
Definition el_text (e : element) : option string :=
  match e with Element _ _ t _ => t end.
Definition el_children (e : element) : list element :=
  match e with Element _ _ _ cs => cs end.

(** [elem.iter()]: the element and all its descendants, in document order. *)
Fixpoint iter (e : element) : list element :=
  match e with
  | Element _ _ _ cs =>
      e :: (fix iter_list (l : list element) : list element :=
              match l with
              | [] => []
              | c :: l' => (iter c ++ iter_list l')%list
              end) cs
  end.

(** The path [".//tag"]: every descendant (not the element itself) with that
    tag, in document order. *)
Definition descendants (e : element) : list element := flat_map iter (el_children e).

Definition findall_desc (tg : string) (e : element) : list element :=
  filter (fun d => String.eqb (el_tag d) tg) (descendants e).

Definition find_desc (tg : string) (e : element) : option element :=
  find (fun d => String.eqb (el_tag d) tg) (descendants e).

(** The path ["tag"]: direct children. *)
Definition findall (tg : string) (e : element) : list element :=
  filter (fun c => String.eqb (el_tag c) tg) (el_children e).

Definition find_child (tg : string) (e : element) : option element :=
  find (fun c => String.eqb (el_tag c) tg) (el_children e).

(** [elem.get(key)]. *)
Definition attr_lookup (k : string) (e : element) : option string :=
  option_map snd (find (fun kv => String.eqb (fst kv) k) (el_attrib e)).

Definition el_get (k default : string) (e : element) : string :=
  match attr_lookup k e with Some v => v | None => default end.

(** ["wms:Tag"] under the namespace map of [_parse_capabilities]. *)
Definition wms (local : string) : string := "{http://www.opengis.net/wms}" ++ local.

(** ** Parsed values *)

(** The dict built by [_parse_layer]. *)
Record Layer : Type := mkLayer {
  name : option string;
  title : option string;
  abstract : option string;
  crs_list : list string;
  queryable : bool
}.

(** The dict built by [_parse_capabilities]; [cached_at] is the clock reading
    of the parse ([datetime.now().isoformat()]). *)
Record Capabilities : Type := mkCapabilities {
  cap_title : option string;
  cap_abstract : option string;
  cap_version : string;
  layers : list Layer;
  formats : list string;
  info_formats : list string;
  cached_at : Z
}.

(** [for e in elems: if e.text: out.append(e.text)]. *)
Fixpoint texts_of (elems : list element) : list string :=
  match elems with
  | [] => []
  | e :: es =>
      match el_text e with
      | Some s => if String.eqb s "" then texts_of es else s :: texts_of es
      | None => texts_of es
      end
  end.

(** [WMSClient._parse_layer]. *)
Definition parse_layer (layer_elem : element) : Layer :=
  let name := match find_child (wms "Name") layer_elem with
              | Some name_elem => el_text name_elem
              | None => Some ""
              end in
  let title := match find_child (wms "Title") layer_elem with
               | Some title_elem => el_text title_elem
               | None => name
               end in
  let abstract := match find_child (wms "Abstract") layer_elem with
                  | Some abstract_elem => el_text abstract_elem
                  | None => None
                  end in
  let crs_list := texts_of (findall (wms "CRS") layer_elem) in
  let queryable := String.eqb (el_get "queryable" "0" layer_elem) "1" in
  {| name := name; title := title; abstract := abstract;
     crs_list := crs_list; queryable := queryable |}.

(** The guard of the layer loop of [_parse_capabilities]:
    [name_elem is not None and name_elem.text]. *)
Definition has_name (layer_elem : element) : bool :=
  match find_child (wms "Name") layer_elem with
  | Some name_elem => truthy (el_text name_elem)
  | None => false
  end.

Fixpoint collect_layers (layer_elems : list element) : list Layer :=
  match layer_elems with
  | [] => []
  | le :: les =>
      if has_name le then parse_layer le :: collect_layers les else collect_layers les
  end.

(** The body of [_parse_capabilities] after [ET.fromstring]. *)
Definition capabilities_of_root (root : element) (version : string) (now : Z)
  : Capabilities :=
  let service_elem := find_desc (wms "Service") root in
  let title :=
    match service_elem with
    | Some s => match find_child (wms "Title") s with
                | Some title_elem => el_text title_elem
                | None => Some "BGS Soil Data WMS"
                end
    | None => Some "BGS Soil Data WMS"
    end in
  let abstract :=
    match service_elem with
    | Some s => match find_child (wms "Abstract") s with
                | Some abstract_elem => el_text abstract_elem
                | None => None
                end
    | None => None
    end in
  let formats :=
    texts_of (flat_map (findall (wms "Format")) (findall_desc (wms "GetMap") root)) in
  let info_formats :=
    texts_of (flat_map (findall (wms "Format")) (findall_desc (wms "GetFeatureInfo") root)) in
  let layers := collect_layers (findall_desc (wms "Layer") root) in
  {| cap_title := title; cap_abstract := abstract; cap_version := version;
     layers := layers; formats := formats; info_formats := info_formats;
     cached_at := now |}.

(** ** The client *)

Record BoundingBox : Type := mkBoundingBox {
  min_x : float; min_y : float; max_x : float; max_y : float; bbox_crs : string
}.

Inductive layers_arg : Type :=
| LayersStr (s : string)
| LayersList (l : list string).

(** [if isinstance(layers, list): layers = ",".join(layers)]. *)
Definition serialize_layers (layers : layers_arg) : string :=
  match layers with
  | LayersStr s => s
  | LayersList l => String.concat "," l
  end.

(** The client's fields; [_cache_duration] is the constant [cache_duration]. *)
Record WMSClient : Type := mkWMSClient {
  base_url : string;
  capabilities_cache : option Capabilities;
  cache_timestamp : option Z
}.

(** [timedelta(hours=1)] in microseconds. *)
Definition cache_duration : Z := 3600 * 1000000.

Definition default_base_url : string :=
  "https://map.bgs.ac.uk/arcgis/services/UKSO/UKSO_BGS/MapServer/WMSServer".

Definition new_client : WMSClient :=
  {| base_url := default_base_url; capabilities_cache := None; cache_timestamp := None |}.

Definition capabilities_url (self : WMSClient) (version : string) : string :=
  base_url self ++ "?" ++
  urlencode [("service", PStr "WMS"); ("request", PStr "GetCapabilities");
             ("version", PStr version)].

(** [self._capabilities_cache = capabilities; self._cache_timestamp = datetime.now()]. *)
Definition store_cache (self : WMSClient) (caps : Capabilities) (now : Z) : WMSClient :=
  {| base_url := base_url self; capabilities_cache := Some caps;
     cache_timestamp := Some now |}.

Section Client.

(** [urllib.request.urlopen(url)] followed by [response.read()]. *)
Variable urlopen : string -> Result bytes.
(** [ET.fromstring]. *)
Variable fromstring : bytes -> Result element.
(** [response.read().decode('utf-8')]. *)
Variable decode_utf8 : bytes -> Result string.
(** [str(float)], as used by the f-string of the bbox. *)
Variable float_repr : float -> string.

(** [WMSClient._parse_capabilities]. *)
Definition parse_capabilities (xml_content : bytes) (version : string) (now : Z)
  : Result Capabilities :=
  root <- fromstring xml_content ;;
  Ok (capabilities_of_root root version now).

(** The fetch-and-parse of [get_capabilities] (its [try] block). *)
Definition fetch_and_parse (self : WMSClient) (version : string) (now_parse : Z)
  : Result Capabilities :=
  content <- urlopen (capabilities_url self version) ;;
  parse_capabilities content version now_parse.

(** [WMSClient.get_capabilities].  The result carries the URLs requested over
    HTTP, the returned value or raised exception, and the client afterwards.
    [now_check], [now_parse] and [now_store] are the three [datetime.now()]
    readings (freshness test, [cached_at], [_cache_timestamp]).  The cached dict
    is never empty and a [datetime] is always truthy, so the truthiness tests
    of the guard are the [Some] tests below. *)
Definition get_capabilities (self : WMSClient) (version : string) (force_refresh : bool)
  (now_check now_parse now_store : Z) : list string * Result Capabilities * WMSClient :=
  let cached :=
    if negb force_refresh then
      match capabilities_cache self, cache_timestamp self with
      | Some caps, Some ts => if (now_check - ts <? cache_duration)%Z then Some caps else None
      | _, _ => None
      end
    else None in
  match cached with
  | Some caps => ([], Ok caps, self)
  | None =>
      let url := capabilities_url self version in
      match urlopen url with
      | Err e => ([url], Err e, self)
      | Ok content =>
          match parse_capabilities content version now_parse with
          | Err e => ([url], Err e, self)
          | Ok capabilities => ([url], Ok capabilities, store_cache self capabilities now_store)
          end
      end
  end.

(** [f"{bbox.min_x},{bbox.min_y},{bbox.max_x},{bbox.max_y}"]. *)
Definition bbox_str (bbox : BoundingBox) : string :=
  float_repr (min_x bbox) ++ "," ++ float_repr (min_y bbox) ++ "," ++
  float_repr (max_x bbox) ++ "," ++ float_repr (max_y bbox).

(** The version branch shared by [get_map] and [get_feature_info]. *)
Definition set_crs_bbox (version crs : string) (bbox : BoundingBox)
  (params : dict pvalue) : dict pvalue :=
  if String.eqb version "1.3.0" then
    dict_set "bbox" (PStr (bbox_str bbox)) (dict_set "crs" (PStr crs) params)
  else
    dict_set "bbox" (PStr (bbox_str bbox)) (dict_set "srs" (PStr crs) params).

(** The [params] dict of [WMSClient.get_map]. *)
Definition get_map_params (layers : layers_arg) (bbox : BoundingBox) (width height : Z)
  (format version : string) (crs : option string) (transparent : bool)
  (bgcolor : string) : dict pvalue :=
  let layers := serialize_layers layers in
  let crs := match crs with Some c => c | None => bbox_crs bbox end in
  let params :=
    [("service", PStr "WMS"); ("request", PStr "GetMap"); ("version", PStr version);
     ("layers", PStr layers); ("width", PInt width); ("height", PInt height);
     ("format", PStr format);
     ("transparent", PStr (if transparent then "true" else "false"));
     ("bgcolor", PStr bgcolor)] in
  set_crs_bbox version crs bbox params.

(** [WMSClient.get_map]. *)
Definition get_map (self : WMSClient) (layers : layers_arg) (bbox : BoundingBox)
  (width height : Z) (format version : string) (crs : option string)
  (transparent : bool) (bgcolor : string) : string :=
  base_url self ++ "?" ++
  urlencode (get_map_params layers bbox width height format version crs transparent bgcolor).

(** The [params] dict of [WMSClient.get_feature_info]. *)
Definition get_feature_info_params (layers : layers_arg) (bbox : BoundingBox) (x y : Z)
  (width height : Z) (info_format version : string) (crs : option string)
  (feature_count : Z) : dict pvalue :=
  let layers := serialize_layers layers in
  let crs := match crs with Some c => c | None => bbox_crs bbox end in
  let params :=
    [("service", PStr "WMS"); ("request", PStr "GetFeatureInfo");
     ("version", PStr version); ("layers", PStr layers); ("query_layers", PStr layers);
     ("width", PInt width); ("height", PInt height); ("info_format", PStr info_format);
     ("feature_count", PInt feature_count); ("x", PInt x); ("y", PInt y)] in
  set_crs_bbox version crs bbox params.

(** [WMSClient.get_feature_info]: the URL requested and the decoded body. *)
Definition get_feature_info (self : WMSClient) (layers : layers_arg) (bbox : BoundingBox)
  (x y width height : Z) (info_format version : string) (crs : option string)
  (feature_count : Z) : string * Result string :=
  let url := base_url self ++ "?" ++
    urlencode (get_feature_info_params layers bbox x y width height info_format
                 version crs feature_count) in
  (url, content <- urlopen url ;; decode_utf8 content).

(** [WMSClient.get_layer_by_name]: [get_capabilities()] with its defaults,
    then the first layer whose ["name"] equals [name]. *)
Definition get_layer_by_name (self : WMSClient) (nm : string)
  (now_check now_parse now_store : Z) : list string * Result (option Layer) * WMSClient :=
  let '(requests, result, self') :=
    get_capabilities self "1.3.0" false now_check now_parse now_store in
  (requests,
   capabilities <- result ;;
   Ok (find (fun layer => match name layer with
                          | Some n => String.eqb n nm
                          | None => false
                          end) (layers capabilities)),
   self').

(** [v.lower()] on a dict value that may be [None]. *)
Definition py_lower (v : option string) : Result string :=
  match v with
  | Some s => Ok (str_lower s)
  | None => Err (AttributeError "'NoneType' object has no attribute 'lower'")
  end.

(** The loop of [search_layers]. *)
Fixpoint search_loop (query_lower : string) (ls : list Layer) : Result (list Layer) :=
  match ls with
  | [] => Ok []
  | layer :: rest =>
      nm <- py_lower (name layer) ;;
      ttl <- py_lower (title layer) ;;
      let abs := if truthy (abstract layer) then
                   match abstract layer with Some a => str_lower a | None => "" end
                 else "" in
      matching <- search_loop query_lower rest ;;
      Ok (if py_in query_lower nm || py_in query_lower ttl || py_in query_lower abs
          then layer :: matching else matching)
  end.

(** [WMSClient.search_layers]. *)
Definition search_layers (self : WMSClient) (query : string)
  (now_check now_parse now_store : Z) : list string * Result (list Layer) * WMSClient :=
  let '(requests, result, self') :=
    get_capabilities self "1.3.0" false now_check now_parse now_store in
  (requests,
   capabilities <- result ;; search_loop (str_lower query) (layers capabilities),
   self').

End Client.

(** [WMSClient.convert_coordinates]: the warnings logged and the result. *)
Definition convert_coordinates (x y : float) (source_crs target_crs : string)
  : list string * (float * float) :=
  if String.eqb source_crs target_crs then ([], (x, y))
  else if String.eqb source_crs "EPSG:4326" && String.eqb target_crs "EPSG:27700" then
    ([], (x * 111319.9, y * 111319.9)%float)
  else if String.eqb source_crs "EPSG:27700" && String.eqb target_crs "EPSG:4326" then
    ([], (x / 111319.9, y / 111319.9)%float)
  else
    (["No conversion available from " ++ source_crs ++ " to " ++ target_crs], (x, y)).

(** ** Sanity checks of the model *)

Example quote_plus_crs : quote_plus "EPSG:4326" = "EPSG%3A4326".
Proof. reflexivity. Qed.

Example quote_plus_layers : quote_plus "a,b c" = "a%2Cb+c".
Proof. reflexivity. Qed.

Example py_str_int_800 : py_str_int 800 = "800" /\ py_str_int (-10) = "-10" /\ py_str_int 0 = "0".
Proof. repeat split; reflexivity. Qed.

Example get_map_url_1_3_0 :
  get_map (fun _ => "0.0") new_client (LayersList ["a"; "b"])
    (mkBoundingBox 0 0 1 1 "EPSG:4326") 800 600 "image/png" "1.3.0" None true "0xFFFFFF"
  = default_base_url ++ "?service=WMS&request=GetMap&version=1.3.0&layers=a%2Cb&width=800&height=600&format=image%2Fpng&transparent=true&bgcolor=0xFFFFFF&crs=EPSG%3A4326&bbox=0.0%2C0.0%2C0.0%2C0.0".
Proof. reflexivity. Qed.

(** ** Theorems *)

Section ClientFacts.

Variable urlopen : string -> Result bytes.
Variable fromstring : bytes -> Result element.

(** What happens on a cache miss: one request for the capabilities URL, and
    on success the fresh catalog is returned and stored with [now_store]. *)
Definition refetched (self : WMSClient) (version : string) (now_parse now_store : Z)
  (requests : list string) (result : Result Capabilities) (self' : WMSClient) : Prop :=
  requests = [capabilities_url self version] /\
  match fetch_and_parse urlopen fromstring self version now_parse with
  | Ok caps => result = Ok caps /\ self' = store_cache self caps now_store
  | Err e => result = Err e
  end.

(** C1: a cached value stored less than an hour ago is returned unchanged,
    without any request and whatever [version] is asked for, unless
    [force_refresh] is set; in every other case the capabilities are fetched
    and parsed, and on success the new value is returned and replaces the
    cache. *)
Theorem get_capabilities_cache_policy (self : WMSClient) (version : string)
  (force_refresh : bool) (now_check now_parse now_store : Z) :
  let '(requests, result, self') :=
    get_capabilities urlopen fromstring self version force_refresh now_check now_parse now_store in
  match capabilities_cache self, cache_timestamp self with
  | Some cached, Some ts =>
      if negb force_refresh && (now_check - ts <? cache_duration)%Z
      then requests = [] /\ result = Ok cached /\ self' = self
      else refetched self version now_parse now_store requests result self'
  | _, _ => refetched self version now_parse now_store requests result self'
  end.
Proof.
  unfold get_capabilities, refetched, fetch_and_parse.
  destruct (capabilities_cache self) as [cached|] eqn:Hc;
  destruct (cache_timestamp self) as [ts|] eqn:Ht;
  [destruct force_refresh; simpl; [|destruct (now_check - ts <? cache_duration)%Z; simpl;
     [repeat split; reflexivity|]] | destruct force_refresh | destruct force_refresh
   | destruct force_refresh];
  simpl; destruct (urlopen (capabilities_url self version)) as [content|e]; simpl;
  try (split; reflexivity);
  destruct (parse_capabilities fromstring content version now_parse); simpl;
  repeat split; reflexivity.
Qed.

(** C2: when [get_capabilities] raises, the exception is the one raised by
    the fetch or the parse, and the client (its cached value and its
    timestamp) is exactly as before; conversely a failed fetch-and-parse on
    a cache miss is raised to the caller. *)
Theorem get_capabilities_error_keeps_cache (self : WMSClient) (version : string)
  (force_refresh : bool) (now_check now_parse now_store : Z) :
  let '(requests, result, self') :=
    get_capabilities urlopen fromstring self version force_refresh now_check now_parse now_store in
  (match result with
   | Err e => fetch_and_parse urlopen fromstring self version now_parse = Err e /\
              self' = self
   | Ok _ => True
   end) /\
  (match fetch_and_parse urlopen fromstring self version now_parse with
   | Err e => requests <> [] -> result = Err e /\ self' = self
   | Ok _ => True
   end).
Proof.
  unfold get_capabilities, fetch_and_parse.
  destruct (if negb force_refresh then _ else None) as [cached|].
  - simpl. split; [exact I|].
    destruct (bind _ _); [exact I|]. intros H; congruence.
  - destruct (urlopen (capabilities_url self version)) as [content|e]; simpl.
    + destruct (parse_capabilities fromstring content version now_parse); simpl;
        repeat split; auto.
    + repeat split; auto.
Qed.

End ClientFacts.

(** [str.split(",")], to read a serialized layer list back. *)
Fixpoint split_comma (s : string) : list string :=
  match s with
  | EmptyString => [""]
  | String c s' =>
      let parts := split_comma s' in
      if Ascii.eqb c "," then "" :: parts
      else match parts with
           | p :: ps => String c p :: ps
           | [] => [String c EmptyString]
           end
  end.

Definition no_comma (s : string) : Prop := py_in "," s = false.

Lemma py_in_comma_cons (c : ascii) (s : string) :
  py_in "," (String c s) = Ascii.eqb c "," || py_in "," s.
Proof.
  change (py_in "," (String c s))
    with (if String.prefix "," (String c s) then true else py_in "," s).
  cbn [String.prefix].
  destruct (ascii_dec "," c) as [<-|Hne].
  - destruct s; reflexivity.
  - assert (Ascii.eqb c "," = false) as -> by (apply Ascii.eqb_neq; congruence).
    reflexivity.
Qed.

Lemma split_comma_cons (c : ascii) (s : string) :
  split_comma (String c s) =
  if Ascii.eqb c "," then "" :: split_comma s
  else match split_comma s with
       | p :: ps => String c p :: ps
       | [] => [String c EmptyString]
       end.
Proof. reflexivity. Qed.

Lemma split_comma_no_comma (a : string) :
  no_comma a -> split_comma a = [a].
Proof.
  unfold no_comma. induction a as [|c a IH]; [reflexivity|].
  rewrite py_in_comma_cons. intros H. apply orb_false_iff in H as [Hc Ha].
  rewrite split_comma_cons, Hc, IH by exact Ha. reflexivity.
Qed.

Lemma split_comma_app (a rest : string) :
  no_comma a -> split_comma (a ++ "," ++ rest) = a :: split_comma rest.
Proof.
  unfold no_comma. induction a as [|c a IH]; [reflexivity|].
  rewrite py_in_comma_cons. intros H. apply orb_false_iff in H as [Hc Ha].
  change (String c a ++ "," ++ rest) with (String c (a ++ "," ++ rest)).
  rewrite split_comma_cons, Hc, IH by exact Ha. reflexivity.
Qed.

Lemma split_comma_concat (l : list string) :
  l <> [] -> Forall no_comma l -> split_comma (String.concat "," l) = l.
Proof.
  induction l as [|a l IH]; intros Hne Hf; [congruence|].
  inversion Hf as [|? ? Ha Hl]; subst.
  destruct l as [|b l].
  - simpl. apply split_comma_no_comma; exact Ha.
  - change (String.concat "," (a :: b :: l)) with (a ++ "," ++ String.concat "," (b :: l)).
    rewrite split_comma_app by exact Ha. rewrite IH; [reflexivity|discriminate|exact Hl].
Qed.

(** C3: the CRS goes under the key [crs] exactly when [version] is ["1.3.0"]
    and under [srs] otherwise (never both), for [get_map] and
    [get_feature_info]; [bbox] is ["min_x,min_y,max_x,max_y"] for every
    version. *)
Theorem crs_key_and_bbox_by_version (float_repr : float -> string) (layers : layers_arg)
  (bbox : BoundingBox) (x y width height feature_count : Z)
  (format info_format version bgcolor : string) (crs : option string) (transparent : bool) :
  let crs_value := match crs with Some c => c | None => bbox_crs bbox end in
  let crs_key := if String.eqb version "1.3.0" then "crs" else "srs" in
  let bbox_value := PStr (float_repr (min_x bbox) ++ "," ++ float_repr (min_y bbox) ++ "," ++
                          float_repr (max_x bbox) ++ "," ++ float_repr (max_y bbox)) in
  let mp := get_map_params float_repr layers bbox width height format version crs
              transparent bgcolor in
  let fp := get_feature_info_params float_repr layers bbox x y width height info_format
              version crs feature_count in
  map fst mp = ["service"; "request"; "version"; "layers"; "width"; "height"; "format";
                "transparent"; "bgcolor"; crs_key; "bbox"] /\
  dict_get crs_key mp = Some (PStr crs_value) /\
  dict_get "bbox" mp = Some bbox_value /\
  map fst fp = ["service"; "request"; "version"; "layers"; "query_layers"; "width";
                "height"; "info_format"; "feature_count"; "x"; "y"; crs_key; "bbox"] /\
  dict_get crs_key fp = Some (PStr crs_value) /\
  dict_get "bbox" fp = Some bbox_value.
Proof.
  unfold get_map_params, get_feature_info_params, set_crs_bbox, bbox_str.
  destruct (String.eqb version "1.3.0"); repeat split; reflexivity.
Qed.

(** C4: a list of layer names is sent as the names joined by [","] (in
    order, no deduplication: splitting it on [","] gives the list back when
    no name contains a comma), a single string as itself, and
    [get_feature_info] sends [query_layers] equal to [layers]. *)
Theorem layers_serialization (float_repr : float -> string) (layers : layers_arg)
  (bbox : BoundingBox) (x y width height feature_count : Z)
  (format info_format version bgcolor : string) (crs : option string) (transparent : bool) :
  let mp := get_map_params float_repr layers bbox width height format version crs
              transparent bgcolor in
  let fp := get_feature_info_params float_repr layers bbox x y width height info_format
              version crs feature_count in
  dict_get "layers" mp = Some (PStr (serialize_layers layers)) /\
  dict_get "layers" fp = Some (PStr (serialize_layers layers)) /\
  dict_get "query_layers" fp = dict_get "layers" fp /\
  match layers with
  | LayersStr s => serialize_layers layers = s
  | LayersList l =>
      serialize_layers layers = String.concat "," l /\
      (l <> [] -> Forall no_comma l -> split_comma (serialize_layers layers) = l)
  end.
Proof.
  unfold get_map_params, get_feature_info_params, set_crs_bbox.
  split; [destruct (String.eqb version "1.3.0"); reflexivity|].
  split; [destruct (String.eqb version "1.3.0"); reflexivity|].
  split; [destruct (String.eqb version "1.3.0"); reflexivity|].
  destruct layers as [s|l]; simpl; [reflexivity|].
  split; [reflexivity|]. apply split_comma_concat.
Qed.

(** C5: [convert_coordinates] always returns a pair: the identity when the
    two CRS are equal, [x * 111319.9] and [y * 111319.9] from EPSG:4326 to
    EPSG:27700, [x / 111319.9] and [y / 111319.9] from EPSG:27700 to
    EPSG:4326, and the identity with one warning for any other pair. *)
Theorem convert_coordinates_cases (x y : float) (source_crs target_crs : string) :
  let '(warnings, result) := convert_coordinates x y source_crs target_crs in
  (source_crs = target_crs -> result = (x, y) /\ warnings = []) /\
  (source_crs = "EPSG:4326" -> target_crs = "EPSG:27700" ->
   result = (x * 111319.9, y * 111319.9)%float /\ warnings = []) /\
  (source_crs = "EPSG:27700" -> target_crs = "EPSG:4326" ->
   result = (x / 111319.9, y / 111319.9)%float /\ warnings = []) /\
  (source_crs <> target_crs ->
   ~ (source_crs = "EPSG:4326" /\ target_crs = "EPSG:27700") ->
   ~ (source_crs = "EPSG:27700" /\ target_crs = "EPSG:4326") ->
   result = (x, y) /\ length warnings = 1%nat).
Proof.
  unfold convert_coordinates.
  destruct (String.eqb_spec source_crs target_crs) as [<-|Hne].
  - repeat split; intros; subst; try reflexivity; congruence.
  - destruct (String.eqb_spec source_crs "EPSG:4326");
    destruct (String.eqb_spec target_crs "EPSG:27700");
    destruct (String.eqb_spec source_crs "EPSG:27700");
    destruct (String.eqb_spec target_crs "EPSG:4326");
    subst; cbn [andb];
    repeat split; intros; subst; try reflexivity; try congruence; tauto.
Qed.

(** Converting EPSG:4326 -> EPSG:27700 and back with the CRS swapped. *)
Definition round_trip (x y : float) : float * float :=
  let '(_, (x', y')) := convert_coordinates x y "EPSG:4326" "EPSG:27700" in
  snd (convert_coordinates x' y' "EPSG:27700" "EPSG:4326").

(** C6 (counterexample): the round trip of [(0.3, 0.0)] does not give
    [(0.3, 0.0)] back: [(0.3 * 111319.9) / 111319.9] rounds to
    [0.29999999999999993] in binary64. *)
Lemma round_trip_not_exact : round_trip 0.3 0 <> (0.3, 0)%float.
Proof.
  intros H. apply (f_equal (fun p => PrimFloat.eqb (fst p) 0.3)) in H.
  vm_compute in H. discriminate H.
Qed.

Example round_trip_overflow : round_trip 1e308 0 = (infinity, 0)%float.
Proof. vm_compute. reflexivity. Qed.

Example round_trip_exact_at_spec_example :
  round_trip (-0.1276) 51.5074 = (-0.1276, 51.5074)%float.
Proof. vm_compute. reflexivity. Qed.

(** C6 (amended): the round trip returns [((x * 111319.9) / 111319.9,
    (y * 111319.9) / 111319.9)] computed in binary64, the original pair up to
    the rounding of the two operations (and infinity when the product
    overflows). *)
Theorem convert_round_trip (x y : float) :
  round_trip x y = ((x * 111319.9) / 111319.9, (y * 111319.9) / 111319.9)%float.
Proof. reflexivity. Qed.

(** ** A capabilities document with a titled-but-empty Title *)

Definition demo_layer_untitled : element :=
  Element (wms "Layer") [("queryable", "1")] None
    [Element (wms "Name") [] (Some "soil_depth") [];
     Element (wms "Title") [] None []].

Definition demo_layer_crs : element :=
  Element (wms "Layer") [] None
    [Element (wms "Name") [] (Some "geology") [];
     Element (wms "Title") [] (Some "Bedrock Geology") [];
     Element (wms "CRS") [] None [];
     Element (wms "CRS") [] (Some "EPSG:4326") []].

Definition demo_root : element :=
  Element (wms "WMS_Capabilities") [] None
    [Element (wms "Service") [] None [Element (wms "Title") [] None []];
     Element (wms "Capability") [] None
       [Element (wms "Layer") [] None
          [Element (wms "Title") [] (Some "Root") []; demo_layer_untitled; demo_layer_crs]]].

Definition demo_caps : Capabilities := capabilities_of_root demo_root "1.3.0" 0.

Definition demo_client : WMSClient := store_cache new_client demo_caps 0.

Example demo_caps_layers :
  map name (layers demo_caps) = [Some "soil_depth"; Some "geology"] /\
  map title (layers demo_caps) = [None; Some "Bedrock Geology"].
Proof. split; reflexivity. Qed.

(** C7 (failing input): with [demo_client], whose fresh cache holds the
    catalog parsed from [demo_root], [search_layers] raises [AttributeError]
    on the layer whose Title element is empty, instead of returning the
    matching layers. *)
Theorem search_layers_raises_on_empty_title
  (urlopen : string -> Result bytes) (fromstring : bytes -> Result element) :
  search_layers urlopen fromstring demo_client "soil" 1 2 3 =
  ([], Err (AttributeError "'NoneType' object has no attribute 'lower'"), demo_client).
Proof. reflexivity. Qed.

(** The match of the spec: a case-insensitive substring of the name, the
    title or the abstract (a missing field read as [""]). *)
Definition layer_matches_spec (query : string) (layer : Layer) : bool :=
  let field (o : option string) := match o with Some s => str_lower s | None => "" end in
  py_in (str_lower query) (field (name layer)) ||
  py_in (str_lower query) (field (title layer)) ||
  py_in (str_lower query) (field (abstract layer)).

(** On a catalog in which every layer has a name and a title, the search
    loop returns exactly the matching layers, in catalog order. *)
Lemma search_loop_titled (query : string) (ls : list Layer) :
  Forall (fun l => name l <> None /\ title l <> None) ls ->
  search_loop (str_lower query) ls = Ok (filter (layer_matches_spec query) ls).
Proof.
  induction 1 as [|l ls [Hn Ht] _ IH]; [reflexivity|].
  destruct l as [[n|] [t|] a cl q]; simpl in Hn, Ht; try congruence.
  simpl. rewrite IH. simpl. unfold layer_matches_spec. simpl.
  destruct a as [a|]; [|reflexivity].
  unfold truthy. destruct (String.eqb_spec a ""); subst; reflexivity.
Qed.

Lemma py_in_empty (s : string) : py_in "" s = true.
Proof. destruct s; reflexivity. Qed.

(** C8 (counterexample): [demo_layer_crs] has two CRS children, one of them
    empty; it is in the parsed catalog, but its [crs_list] has one entry. *)
Lemma crs_list_drops_empty_crs :
  In (parse_layer demo_layer_crs) (layers demo_caps) /\
  length (crs_list (parse_layer demo_layer_crs)) <> length (findall (wms "CRS") demo_layer_crs).
Proof.
  split.
  - right. left. reflexivity.
  - vm_compute. discriminate.
Qed.

Lemma collect_layers_filter (les : list element) :
  collect_layers les = map parse_layer (filter has_name les).
Proof.
  induction les as [|le les IH]; simpl; [reflexivity|].
  destruct (has_name le); simpl; rewrite IH; reflexivity.
Qed.

Lemma texts_of_filter (elems : list element) :
  map Some (texts_of elems) = filter truthy (map el_text elems).
Proof.
  induction elems as [|e es IH]; simpl; [reflexivity|].
  destruct (el_text e) as [s|]; simpl; [|exact IH].
  destruct (String.eqb s ""); simpl; rewrite IH; reflexivity.
Qed.

(** C8 (amended): the parsed layers are, in document order, the parses of
    the [wms:Layer] descendants whose first [wms:Name] child has non-empty
    text; a layer's title is its name when it has no Title child; its
    [crs_list] holds, in document order and with duplicates, the texts of its
    CRS children that have non-empty text; it is queryable exactly when its
    [queryable] attribute is ["1"]. *)
Theorem parsed_layers_spec (root : element) (version : string) (now : Z) :
  layers (capabilities_of_root root version now) =
    map parse_layer (filter has_name (findall_desc (wms "Layer") root)) /\
  (forall le : element,
     (has_name le = true <->
      exists name_elem s, find_child (wms "Name") le = Some name_elem /\
                          el_text name_elem = Some s /\ s <> "") /\
     (has_name le = true -> truthy (name (parse_layer le)) = true) /\
     (find_child (wms "Title") le = None -> title (parse_layer le) = name (parse_layer le)) /\
     map Some (crs_list (parse_layer le)) = filter truthy (map el_text (findall (wms "CRS") le)) /\
     (queryable (parse_layer le) = true <-> attr_lookup "queryable" le = Some "1")).
Proof.
  split; [apply collect_layers_filter|].
  intros le. unfold has_name, parse_layer; simpl.
  split; [|split; [|split; [|split]]].
  - destruct (find_child (wms "Name") le) as [ne|].
    + unfold truthy. destruct (el_text ne) as [s|] eqn:Ht.
      * split.
        -- intros H. exists ne, s. split; [reflexivity|split; [exact Ht|]].
           intros ->. discriminate H.
        -- intros (ne' & s' & Hne & Hs & Hnz). injection Hne as <-.
           rewrite Ht in Hs. injection Hs as ->.
           destruct (String.eqb_spec s' ""); [contradiction|reflexivity].
      * split; [discriminate|]. intros (ne' & s' & Hne & Hs & _).
        injection Hne as <-. congruence.
    + split; [discriminate|]. intros (? & ? & H & _). discriminate H.
  - destruct (find_child (wms "Name") le); [exact (fun H => H)|discriminate].
  - intros ->. reflexivity.
  - apply texts_of_filter.
  - unfold el_get. destruct (attr_lookup "queryable" le) as [v|].
    + destruct (String.eqb_spec v "1"); subst; split; congruence.
    + split; discriminate.
Qed.

Lemma find_first {A} (f : A -> bool) (l : list A) :
  match find f l with
  | Some x => exists pre post, l = (pre ++ x :: post)%list /\ f x = true /\
                               Forall (fun y => f y = false) pre
  | None => Forall (fun y => f y = false) l
  end.
Proof.
  induction l as [|a l IH]; simpl; [constructor|].
  destruct (f a) eqn:E.
  - exists [], l. repeat split; auto.
  - destruct (find f l) as [x|].
    + destruct IH as (pre & post & -> & Hx & Hpre).
      exists (a :: pre), post. repeat split; auto.
    + constructor; assumption.
Qed.

Lemma name_test_iff (nm : string) (layer : Layer) :
  (match name layer with Some n => String.eqb n nm | None => false end = true
   <-> name layer = Some nm).
Proof.
  destruct (name layer) as [n|]; [|split; discriminate].
  rewrite String.eqb_eq. split; congruence.
Qed.

(** C9: once the catalog is available (served from the cache or fetched),
    [get_layer_by_name] does not raise: it returns the first layer, in
    catalog order, whose name is exactly [nm], or [None] when no layer has
    that name; when the catalog cannot be obtained the error of
    [get_capabilities] is raised. *)
Theorem get_layer_by_name_first_match
  (urlopen : string -> Result bytes) (fromstring : bytes -> Result element)
  (self : WMSClient) (nm : string) (now_check now_parse now_store : Z) :
  let '(requests, result, self') :=
    get_capabilities urlopen fromstring self "1.3.0" false now_check now_parse now_store in
  let '(requests2, found, self2) :=
    get_layer_by_name urlopen fromstring self nm now_check now_parse now_store in
  requests2 = requests /\ self2 = self' /\
  match result with
  | Ok caps =>
      exists r, found = Ok r /\
      match r with
      | Some layer =>
          exists pre post, layers caps = (pre ++ layer :: post)%list /\ name layer = Some nm /\
                           Forall (fun l' => name l' <> Some nm) pre
      | None => Forall (fun l' => name l' <> Some nm) (layers caps)
      end
  | Err e => found = Err e
  end.
Proof.
  unfold get_layer_by_name.
  destruct (get_capabilities urlopen fromstring self "1.3.0" false now_check now_parse now_store)
    as [[requests result] self'].
  split; [reflexivity|split; [reflexivity|]].
  destruct result as [caps|e]; simpl; [|reflexivity].
  eexists; split; [reflexivity|].
  pose proof (find_first (fun layer => match name layer with
                                       | Some n => String.eqb n nm
                                       | None => false
                                       end) (layers caps)) as H.
  destruct (find _ (layers caps)) as [layer|].
  - destruct H as (pre & post & Hl & Hx & Hpre).
    exists pre, post. split; [exact Hl|split].
    + apply name_test_iff. exact Hx.
    + eapply Forall_impl; [|exact Hpre]. simpl. intros l' Hf Heq.
      apply name_test_iff in Heq. congruence.
  - eapply Forall_impl; [|exact H]. simpl. intros l' Hf Heq.
    apply name_test_iff in Heq. congruence.
Qed.

(** C10: a Title element without text gives the title [None]: the service
    title is then not ["BGS Soil Data WMS"] and a layer's title is not its
    name; those defaults are taken only when the Title element is missing. *)
Theorem empty_title_is_none (root service_elem service_title layer_elem layer_title : element)
  (version : string) (now : Z)
  (Hservice : find_desc (wms "Service") root = Some service_elem)
  (Hstitle : find_child (wms "Title") service_elem = Some service_title)
  (Hstext : el_text service_title = None)
  (Hltitle : find_child (wms "Title") layer_elem = Some layer_title)
  (Hltext : el_text layer_title = None) :
  cap_title (capabilities_of_root root version now) = None /\
  title (parse_layer layer_elem) = None /\
  (forall svc, find_desc (wms "Service") root = Some svc ->
               find_child (wms "Title") svc = None ->
               cap_title (capabilities_of_root root version now) = Some "BGS Soil Data WMS") /\
  (forall le, find_child (wms "Title") le = None -> title (parse_layer le) = name (parse_layer le)).
Proof.
  unfold capabilities_of_root, parse_layer; simpl.
  rewrite Hservice, Hstitle, Hstext, Hltitle, Hltext.
  split; [reflexivity|split; [reflexivity|split]].
  - intros svc Hs Ht. injection Hs as <-. congruence.
  - intros le ->. reflexivity.
Qed.

(** A concrete document for [empty_title_is_none]: [demo_root] has an empty
    service Title and [demo_layer_untitled] an empty layer Title. *)
Lemma empty_title_is_none_witness :
  cap_title demo_caps = None /\ title (parse_layer demo_layer_untitled) = None.
Proof.
  destruct (empty_title_is_none demo_root
              (Element (wms "Service") [] None [Element (wms "Title") [] None []])
              (Element (wms "Title") [] None [])
              demo_layer_untitled (Element (wms "Title") [] None []) "1.3.0" 0
              eq_refl eq_refl eq_refl eq_refl eq_refl) as [H1 [H2 _]].
  split; [exact H1|exact H2].
Defined.

(** ** Decoding the query strings the client builds *)

(** [s.split(sep)]. *)
Fixpoint split_on (sep : ascii) (s : string) : list string :=
  match s with
  | EmptyString => [""]
  | String c s' =>
      let parts := split_on sep s' in
      if Ascii.eqb c sep then "" :: parts
      else match parts with
           | p :: ps => String c p :: ps
           | [] => [String c EmptyString]
           end
  end.

(** [s.split(sep, 1)]: the text before the first [sep] and, when there is
    one, the text after it. *)
Fixpoint split_first (sep : ascii) (s : string) : string * option string :=
  match s with
  | EmptyString => (EmptyString, None)
  | String c s' =>
      if Ascii.eqb c sep then (EmptyString, Some s')
      else let '(a, b) := split_first sep s' in (String c a, b)
  end.

Fixpoint has_char (c : ascii) (s : string) : bool :=
  match s with
  | EmptyString => false
  | String d s' => Ascii.eqb d c || has_char c s'
  end.

Definition hex_val (c : ascii) : option nat :=
  let n := nat_of_ascii c in
  if (48 <=? n)%nat && (n <=? 57)%nat then Some (n - 48)%nat
  else if (65 <=? n)%nat && (n <=? 70)%nat then Some (n - 55)%nat
  else if (97 <=? n)%nat && (n <=? 102)%nat then Some (n - 87)%nat
  else None.

(** [urllib.parse.unquote_plus] on bytes: ["+"] is a space, ["%XX"] the byte
    [XX], any other byte (also a ["%"] not followed by two hex digits) itself. *)
Fixpoint unquote_plus (s : string) : string :=
  match s with
  | EmptyString => EmptyString
  | String c s' =>
      if Ascii.eqb c "+" then String " " (unquote_plus s')
      else if Ascii.eqb c "%" then
        match s' with
        | String h1 (String h2 s'') =>
            match hex_val h1, hex_val h2 with
            | Some a, Some b => String (ascii_of_nat (a * 16 + b)) (unquote_plus s'')
            | _, _ => String c (unquote_plus s')
            end
        | _ => String c (unquote_plus s')
        end
      else String c (unquote_plus s')
  end.

(** [urllib.parse.parse_qsl(q, keep_blank_values=True)]: the ["&"]-separated
    non-empty fields, each split at its first ["="] and unquoted. *)
Definition decode_pair (field : string) : string * string :=
  match split_first "=" field with
  | (k, Some v) => (unquote_plus k, unquote_plus v)
  | (k, None) => (unquote_plus k, "")
  end.

Definition decode_query (q : string) : list (string * string) :=
  flat_map (fun field => if String.eqb field "" then [] else [decode_pair field])
    (split_on "&" q).

Lemma split_on_cons (sep c : ascii) (s : string) :
  split_on sep (String c s) =
  if Ascii.eqb c sep then "" :: split_on sep s
  else match split_on sep s with
       | p :: ps => String c p :: ps
       | [] => [String c EmptyString]
       end.
Proof. reflexivity. Qed.

Lemma split_on_no_sep (sep : ascii) (a : string) :
  has_char sep a = false -> split_on sep a = [a].
Proof.
  induction a as [|c a IH]; [reflexivity|].
  intros H. simpl in H. apply orb_false_iff in H as [Hc Ha].
  rewrite split_on_cons, Hc, IH by exact Ha. reflexivity.
Qed.

Lemma split_on_app (sep : ascii) (a rest : string) :
  has_char sep a = false -> split_on sep (a ++ String sep rest) = a :: split_on sep rest.
Proof.
  induction a as [|c a IH]; simpl.
  - intros _. rewrite Ascii.eqb_refl. reflexivity.
  - intros H. apply orb_false_iff in H as [Hc Ha].
    rewrite Hc, IH by exact Ha. reflexivity.
Qed.

Lemma split_on_concat (sep : ascii) (l : list string) :
  l <> [] -> Forall (fun s => has_char sep s = false) l ->
  split_on sep (String.concat (String sep EmptyString) l) = l.
Proof.
  induction l as [|a l IH]; intros Hne Hf; [congruence|].
  inversion Hf as [|? ? Ha Hl]; subst.
  destruct l as [|b l].
  - apply split_on_no_sep; exact Ha.
  - change (String.concat (String sep EmptyString) (a :: b :: l))
      with (a ++ String sep (String.concat (String sep EmptyString) (b :: l))).
    rewrite split_on_app by exact Ha. rewrite IH; [reflexivity|discriminate|exact Hl].
Qed.

Lemma split_first_app (sep : ascii) (a b : string) :
  has_char sep a = false -> split_first sep (a ++ String sep b) = (a, Some b).
Proof.
  induction a as [|c a IH]; simpl.
  - intros _. rewrite Ascii.eqb_refl. reflexivity.
  - intros H. apply orb_false_iff in H as [Hc Ha].
    rewrite Hc, IH by exact Ha. reflexivity.
Qed.

(** The encoding of one byte by [quote_plus]. *)
Lemma quote_plus_cons (c : ascii) (s : string) :
  quote_plus (String c s) = quote_plus (String c EmptyString) ++ quote_plus s.
Proof.
  simpl. destruct (always_safe c); [reflexivity|].
  destruct (nat_of_ascii c =? 32)%nat; reflexivity.
Qed.

Lemma ascii_cases (P : ascii -> Prop) :
  (forall b0 b1 b2 b3 b4 b5 b6 b7, P (Ascii b0 b1 b2 b3 b4 b5 b6 b7)) -> forall c, P c.
Proof. intros H [b0 b1 b2 b3 b4 b5 b6 b7]. apply H. Qed.

Lemma unquote_quote_byte (c : ascii) (t : string) :
  unquote_plus (quote_plus (String c EmptyString) ++ t) = String c (unquote_plus t).
Proof.
  revert c. apply ascii_cases.
  intros [] [] [] [] [] [] [] []; reflexivity.
Qed.

Lemma quote_byte_no_amp_eq (c : ascii) :
  has_char "&" (quote_plus (String c EmptyString)) = false /\
  has_char "=" (quote_plus (String c EmptyString)) = false.
Proof.
  revert c. apply ascii_cases.
  intros [] [] [] [] [] [] [] []; split; reflexivity.
Qed.

Lemma has_char_app (sep : ascii) (a b : string) :
  has_char sep (a ++ b) = has_char sep a || has_char sep b.
Proof.
  induction a as [|c a IH]; simpl; [reflexivity|]. rewrite IH. apply orb_assoc.
Qed.

Lemma unquote_quote_plus (s : string) : unquote_plus (quote_plus s) = s.
Proof.
  induction s as [|c s IH]; [reflexivity|].
  rewrite quote_plus_cons, unquote_quote_byte, IH. reflexivity.
Qed.

Lemma quote_plus_no_amp_eq (s : string) :
  has_char "&" (quote_plus s) = false /\ has_char "=" (quote_plus s) = false.
Proof.
  induction s as [|c s [IH1 IH2]]; [split; reflexivity|].
  rewrite quote_plus_cons, !has_char_app.
  destruct (quote_byte_no_amp_eq c) as [H1 H2]. rewrite H1, H2, IH1, IH2. split; reflexivity.
Qed.

Definition encode_pair (kv : string * pvalue) : string :=
  quote_plus (fst kv) ++ "=" ++ quote_plus (pvalue_str (snd kv)).

Lemma encode_pair_no_amp (kv : string * pvalue) : has_char "&" (encode_pair kv) = false.
Proof.
  unfold encode_pair. rewrite has_char_app.
  destruct (quote_plus_no_amp_eq (fst kv)) as [H1 _].
  destruct (quote_plus_no_amp_eq (pvalue_str (snd kv))) as [H2 _].
  rewrite H1. simpl. exact H2.
Qed.

Lemma decode_encode_fields (params : dict pvalue) :
  flat_map (fun field => if String.eqb field "" then [] else [decode_pair field])
    (map encode_pair params) = map (fun kv => (fst kv, pvalue_str (snd kv))) params.
Proof.
  induction params as [|[k v] ps IH]; [reflexivity|].
  simpl flat_map. rewrite IH.
  assert (Hne : String.eqb (encode_pair (k, v)) "" = false).
  { unfold encode_pair. cbn [fst snd]. destruct (quote_plus k); reflexivity. }
  rewrite Hne. unfold decode_pair, encode_pair. cbn [fst snd].
  change ("=" ++ quote_plus (pvalue_str v)) with (String "=" (quote_plus (pvalue_str v))).
  rewrite split_first_app by exact (proj2 (quote_plus_no_amp_eq k)).
  rewrite !unquote_quote_plus. reflexivity.
Qed.

(** X1: decoding the query string produced by [urlencode] (as [parse_qsl]
    with blank values kept does) gives back every parameter, in order, with
    its value as [str] renders it. *)
Theorem urlencode_decode_round_trip (params : dict pvalue) :
  decode_query (urlencode params) = map (fun kv => (fst kv, pvalue_str (snd kv))) params.
Proof.
  destruct params as [|p ps]; [reflexivity|].
  unfold decode_query, urlencode.
  change (fun kv : string * pvalue =>
            quote_plus (fst kv) ++ "=" ++ quote_plus (pvalue_str (snd kv))) with encode_pair.
  change "&" with (String "&" EmptyString).
  rewrite split_on_concat.
  - apply decode_encode_fields.
  - discriminate.
  - apply Forall_forall. intros f Hf. apply in_map_iff in Hf as (kv & <- & _).
    apply encode_pair_no_amp.
Qed.

(** X2: when the base URL contains no ["?"], the URL returned by [get_map]
    splits at its first ["?"] into the base URL and a query string that
    decodes to the GetMap parameters, with the CRS under [crs] for version
    ["1.3.0"] and under [srs] otherwise, followed by the bbox. *)
Theorem get_map_url_decodes (float_repr : float -> string) (self : WMSClient)
  (layers : layers_arg) (bbox : BoundingBox) (width height : Z)
  (format version : string) (crs : option string) (transparent : bool) (bgcolor : string)
  (Hbase : has_char "?" (base_url self) = false) :
  split_first "?" (get_map float_repr self layers bbox width height format version crs
                     transparent bgcolor) =
  (base_url self,
   Some (urlencode (get_map_params float_repr layers bbox width height format version crs
                      transparent bgcolor))) /\
  decode_query (urlencode (get_map_params float_repr layers bbox width height format version
                             crs transparent bgcolor)) =
  [("service", "WMS"); ("request", "GetMap"); ("version", version);
   ("layers", serialize_layers layers); ("width", py_str_int width);
   ("height", py_str_int height); ("format", format);
   ("transparent", if transparent then "true" else "false"); ("bgcolor", bgcolor);
   (if String.eqb version "1.3.0" then "crs" else "srs",
    match crs with Some c => c | None => bbox_crs bbox end);
   ("bbox", bbox_str float_repr bbox)].
Proof.
  split.
  - unfold get_map. change ("?" ++ ?q) with (String "?" q).
    apply split_first_app. exact Hbase.
  - rewrite urlencode_decode_round_trip.
    unfold get_map_params, set_crs_bbox.
    destruct (String.eqb version "1.3.0"); reflexivity.
Qed.

Lemma get_map_url_decodes_witness :
  has_char "?" (base_url new_client) = false /\
  decode_query (urlencode (get_map_params (fun _ => "0.0") (LayersList ["a"; "b"])
     (mkBoundingBox 0 0 1 1 "EPSG:4326") 800 600 "image/png" "1.1.1" None true "0xFFFFFF"))
  = [("service", "WMS"); ("request", "GetMap"); ("version", "1.1.1"); ("layers", "a,b");
     ("width", "800"); ("height", "600"); ("format", "image/png"); ("transparent", "true");
     ("bgcolor", "0xFFFFFF"); ("srs", "EPSG:4326"); ("bbox", "0.0,0.0,0.0,0.0")].
Proof.
  split; [reflexivity|].
  exact (proj2 (get_map_url_decodes (fun _ => "0.0") new_client (LayersList ["a"; "b"])
                  (mkBoundingBox 0 0 1 1 "EPSG:4326") 800 600 "image/png" "1.1.1" None true
                  "0xFFFFFF" eq_refl)).
Defined.

(** X11: when the base URL contains no ["?"], [get_feature_info] requests
    exactly one URL, which splits at its first ["?"] into the base URL and a
    query string decoding to the GetFeatureInfo parameters ([query_layers]
    equal to [layers], the CRS under [crs] for version ["1.3.0"] and under
    [srs] otherwise, then the bbox); it returns the UTF-8 decoded response,
    or the transport or decoding error. *)
Theorem get_feature_info_request (urlopen : string -> Result bytes)
  (decode_utf8 : bytes -> Result string) (float_repr : float -> string) (self : WMSClient)
  (layers : layers_arg) (bbox : BoundingBox) (x y width height : Z)
  (info_format version : string) (crs : option string) (feature_count : Z)
  (Hbase : has_char "?" (base_url self) = false) :
  let '(url, res) := get_feature_info urlopen decode_utf8 float_repr self layers bbox
                       x y width height info_format version crs feature_count in
  res = (content <- urlopen url ;; decode_utf8 content) /\
  exists query,
    split_first "?" url = (base_url self, Some query) /\
    decode_query query =
    [("service", "WMS"); ("request", "GetFeatureInfo"); ("version", version);
     ("layers", serialize_layers layers); ("query_layers", serialize_layers layers);
     ("width", py_str_int width); ("height", py_str_int height);
     ("info_format", info_format); ("feature_count", py_str_int feature_count);
     ("x", py_str_int x); ("y", py_str_int y);
     (if String.eqb version "1.3.0" then "crs" else "srs",
      match crs with Some c => c | None => bbox_crs bbox end);
     ("bbox", bbox_str float_repr bbox)].
Proof.
  unfold get_feature_info. split; [reflexivity|].
  eexists. split.
  - change ("?" ++ ?q) with (String "?" q). apply split_first_app. exact Hbase.
  - rewrite urlencode_decode_round_trip.
    unfold get_feature_info_params, set_crs_bbox.
    destruct (String.eqb version "1.3.0"); reflexivity.
Qed.

Definition offline_urlopen (url : string) : Result bytes := Err (URLError "offline").

Definition decode_empty (content : bytes) : Result string := Ok EmptyString.

Lemma get_feature_info_request_witness :
  has_char "?" (base_url new_client) = false /\
  (let '(url, res) := get_feature_info offline_urlopen decode_empty
                        (fun _ => "0.0") new_client (LayersStr "a")
                        (mkBoundingBox 0 0 1 1 "EPSG:27700") 5 7 10 10 "text/html" "1.3.0"
                        None 1 in
   res = (content <- offline_urlopen url ;; decode_empty content) /\
   exists query,
     split_first "?" url = (base_url new_client, Some query) /\
     decode_query query =
     [("service", "WMS"); ("request", "GetFeatureInfo"); ("version", "1.3.0");
      ("layers", "a"); ("query_layers", "a"); ("width", "10"); ("height", "10");
      ("info_format", "text/html"); ("feature_count", "1"); ("x", "5"); ("y", "7");
      ("crs", "EPSG:27700"); ("bbox", "0.0,0.0,0.0,0.0")]).
Proof.
  split; [reflexivity|].
  exact (get_feature_info_request offline_urlopen decode_empty
           (fun _ => "0.0") new_client (LayersStr "a") (mkBoundingBox 0 0 1 1 "EPSG:27700")
           5 7 10 10 "text/html" "1.3.0" None 1 eq_refl).
Defined.

(** ** The cache across calls *)

Section CacheFacts.

Variable urlopen : string -> Result bytes.
Variable fromstring : bytes -> Result element.

(** X3: a catalog just fetched (the call made a request and succeeded at
    [now_store]) is served by the next call from the cache, without any
    request and whatever version it asks for, as long as it comes less than
    an hour after [now_store] and does not force a refresh. *)
Theorem fetched_capabilities_served_from_cache (self self' : WMSClient)
  (version version' : string) (force_refresh : bool) (requests : list string)
  (caps : Capabilities) (now_check now_parse now_store now_check' now_parse' now_store' : Z)
  (Hcall : get_capabilities urlopen fromstring self version force_refresh
             now_check now_parse now_store = (requests, Ok caps, self'))
  (Hrequested : requests <> [])
  (Hfresh : (now_check' - now_store < cache_duration)%Z) :
  get_capabilities urlopen fromstring self' version' false now_check' now_parse' now_store' =
  ([], Ok caps, self').
Proof.
  revert Hcall. unfold get_capabilities.
  destruct (if negb force_refresh then _ else None) as [cached|].
  - intros H. injection H as <- _ _. congruence.
  - destruct (urlopen (capabilities_url self version)) as [content|e]; [|discriminate].
    destruct (parse_capabilities fromstring content version now_parse) as [c|e];
      [|discriminate].
    intros H. injection H as _ <- <-. simpl.
    apply Z.ltb_lt in Hfresh. rewrite Hfresh. reflexivity.
Qed.

(** The client fields the code keeps together: the base URL it was built
    with, and a cached value exactly when there is a cache timestamp. *)
Definition client_inv (base : string) (self : WMSClient) : Prop :=
  base_url self = base /\ (capabilities_cache self = None <-> cache_timestamp self = None).

Lemma get_capabilities_inv (base : string) (self : WMSClient) (version : string)
  (force_refresh : bool) (now_check now_parse now_store : Z) :
  client_inv base self ->
  client_inv base (snd (get_capabilities urlopen fromstring self version force_refresh
                         now_check now_parse now_store)).
Proof.
  intros Hinv. unfold get_capabilities.
  destruct (if negb force_refresh then _ else None); [exact Hinv|].
  destruct (urlopen _) as [content|e]; [|exact Hinv].
  destruct (parse_capabilities fromstring content version now_parse); [|exact Hinv].
  destruct Hinv as [Hb _]. split; [exact Hb|]. simpl. split; discriminate.
Qed.

(** X4: [get_capabilities], [get_layer_by_name] and [search_layers] never
    change the base URL, and keep the cached value and its timestamp set or
    unset together. *)
Theorem client_inv_preserved (base : string) (self : WMSClient) (version nm query : string)
  (force_refresh : bool) (now_check now_parse now_store : Z)
  (Hinv : client_inv base self) :
  client_inv base (snd (get_capabilities urlopen fromstring self version force_refresh
                          now_check now_parse now_store)) /\
  client_inv base (snd (get_layer_by_name urlopen fromstring self nm
                          now_check now_parse now_store)) /\
  client_inv base (snd (search_layers urlopen fromstring self query
                          now_check now_parse now_store)).
Proof.
  pose proof (get_capabilities_inv base self "1.3.0" false now_check now_parse now_store Hinv)
    as H.
  split; [apply get_capabilities_inv; exact Hinv|].
  unfold get_layer_by_name, search_layers.
  destruct (get_capabilities urlopen fromstring self "1.3.0" false now_check now_parse now_store)
    as [[requests result] self'].
  split; exact H.
Qed.

(** X5: while the cache is fresh, [get_layer_by_name] and [search_layers]
    make no request and leave the client unchanged: they work on the cached
    catalog. *)
Theorem layer_index_uses_fresh_cache (self : WMSClient) (caps : Capabilities) (ts : Z)
  (nm query : string) (now_check now_parse now_store : Z)
  (Hcache : capabilities_cache self = Some caps) (Hts : cache_timestamp self = Some ts)
  (Hfresh : (now_check - ts < cache_duration)%Z) :
  get_layer_by_name urlopen fromstring self nm now_check now_parse now_store =
  ([], Ok (find (fun layer => match name layer with
                              | Some n => String.eqb n nm
                              | None => false
                              end) (layers caps)), self) /\
  search_layers urlopen fromstring self query now_check now_parse now_store =
  ([], search_loop (str_lower query) (layers caps), self).
Proof.
  unfold get_layer_by_name, search_layers, get_capabilities.
  rewrite Hcache, Hts. apply Z.ltb_lt in Hfresh. rewrite Hfresh. split; reflexivity.
Qed.

End CacheFacts.

(** A transport and parser that always deliver [demo_root]. *)
Definition demo_urlopen (url : string) : Result bytes := Ok "<WMS_Capabilities/>".
Definition demo_fromstring (content : bytes) : Result element := Ok demo_root.

Lemma fetched_capabilities_served_from_cache_witness :
  get_capabilities demo_urlopen demo_fromstring
    (store_cache new_client demo_caps 10) "1.1.1" false 20 30 40 = ([], Ok demo_caps,
    store_cache new_client demo_caps 10).
Proof.
  exact (fetched_capabilities_served_from_cache demo_urlopen demo_fromstring new_client
           (store_cache new_client demo_caps 10) "1.3.0" "1.1.1" true
           [capabilities_url new_client "1.3.0"] demo_caps 0 0 10 20 30 40
           eq_refl ltac:(discriminate) ltac:(vm_compute; reflexivity)).
Defined.

Lemma client_inv_preserved_witness :
  client_inv default_base_url
    (snd (search_layers demo_urlopen demo_fromstring new_client "soil" 0 0 0)).
Proof.
  exact (proj2 (proj2 (client_inv_preserved demo_urlopen demo_fromstring default_base_url
     new_client "1.3.0" "soil" "soil" false 0 0 0
     (conj eq_refl (conj (fun _ => eq_refl) (fun _ => eq_refl)))))).
Defined.

Lemma layer_index_uses_fresh_cache_witness :
  get_layer_by_name demo_urlopen demo_fromstring demo_client "geology" 5 6 7 =
  ([], Ok (find (fun layer => match name layer with
                              | Some n => String.eqb n "geology"
                              | None => false
                              end) (layers demo_caps)), demo_client).
Proof.
  exact (proj1 (layer_index_uses_fresh_cache demo_urlopen demo_fromstring demo_client demo_caps 0
                  "geology" "soil" 5 6 7 eq_refl eq_refl ltac:(vm_compute; reflexivity))).
Defined.

(** ** The parsed catalog and the layer index *)

Lemma texts_of_nonempty (elems : list element) : Forall (fun s => s <> "") (texts_of elems).
Proof.
  induction elems as [|e es IH]; simpl; [constructor|].
  destruct (el_text e) as [s|]; [|exact IH].
  destruct (String.eqb_spec s ""); [exact IH|]. constructor; assumption.
Qed.

Lemma has_name_truthy (le : element) :
  has_name le = true -> truthy (name (parse_layer le)) = true.
Proof.
  unfold has_name, parse_layer. simpl.
  destruct (find_child (wms "Name") le); [exact (fun H => H)|discriminate].
Qed.

(** X6: in every parsed catalog each layer has a non-empty name, and no
    format, info format or layer CRS is the empty string. *)
Theorem parsed_catalog_nonempty_strings (root : element) (version : string) (now : Z) :
  let caps := capabilities_of_root root version now in
  Forall (fun l => truthy (name l) = true /\ Forall (fun s => s <> "") (crs_list l))
    (layers caps) /\
  Forall (fun s => s <> "") (formats caps) /\ Forall (fun s => s <> "") (info_formats caps).
Proof.
  simpl. split; [|split; apply texts_of_nonempty].
  induction (findall_desc (wms "Layer") root) as [|le les IH]; simpl; [constructor|].
  destruct (has_name le) eqn:H; [|exact IH].
  constructor; [|exact IH]. split; [apply has_name_truthy; exact H|apply texts_of_nonempty].
Qed.

Lemma search_loop_ok (query : string) (ls : list Layer) (r : list Layer) :
  search_loop (str_lower query) ls = Ok r -> r = filter (layer_matches_spec query) ls.
Proof.
  revert r. induction ls as [|l ls IH]; simpl; intros r H.
  - injection H as <-. reflexivity.
  - destruct l as [[n|] [t|] a cl q]; simpl in H; try discriminate.
    destruct (search_loop (str_lower query) ls) as [rest|e] eqn:Hrest; [|discriminate].
    simpl in H. injection H as <-. rewrite (IH rest eq_refl).
    unfold layer_matches_spec. simpl.
    destruct a as [a|]; [|reflexivity].
    unfold truthy. destruct (String.eqb_spec a ""); subst; reflexivity.
Qed.

Lemma search_loop_err (query : string) (ls : list Layer) :
  (exists e, search_loop query ls = Err e) <->
  Exists (fun l => name l = None \/ title l = None) ls.
Proof.
  induction ls as [|l ls IH]; simpl.
  - split; [intros [e H]; discriminate|intros H; inversion H].
  - destruct l as [[n|] [t|] a cl q]; simpl.
    + rewrite Exists_cons. simpl.
      destruct (search_loop query ls) as [rest|e]; simpl.
      * split; [intros [e H]; discriminate|].
        intros [[H|H]|H]; try discriminate. apply IH in H as [e H]. discriminate.
      * split; [intros _; right; apply IH; eauto|eauto].
    + split; [intros _; left; right; reflexivity|eauto].
    + split; [intros _; left; left; reflexivity|eauto].
    + split; [intros _; left; left; reflexivity|eauto].
Qed.

(** X7: when [search_layers] returns, its result is exactly the catalog's
    layers whose name, title or abstract contains the query as a
    case-insensitive substring, in catalog order. *)
Theorem search_layers_result (urlopen : string -> Result bytes)
  (fromstring : bytes -> Result element) (self self' : WMSClient) (query : string)
  (requests : list string) (r : list Layer) (now_check now_parse now_store : Z)
  (Hsearch : search_layers urlopen fromstring self query now_check now_parse now_store =
             (requests, Ok r, self')) :
  exists caps,
    get_capabilities urlopen fromstring self "1.3.0" false now_check now_parse now_store =
      (requests, Ok caps, self') /\
    r = filter (layer_matches_spec query) (layers caps).
Proof.
  revert Hsearch. unfold search_layers.
  destruct (get_capabilities urlopen fromstring self "1.3.0" false now_check now_parse now_store)
    as [[reqs [caps|e]] s'].
  - simpl. destruct (search_loop (str_lower query) (layers caps)) as [r'|e] eqn:Hl;
      [|discriminate].
    intros H. injection H as <- <- <-. exists caps. split; [reflexivity|].
    apply search_loop_ok. exact Hl.
  - discriminate.
Qed.

(** X8: on a parsed catalog, the search loop raises exactly when some layer
    has no title (a Title element without text). *)
Theorem search_parsed_catalog_raises_iff_untitled (root : element) (version : string)
  (now : Z) (query : string) :
  (exists e, search_loop (str_lower query) (layers (capabilities_of_root root version now))
             = Err e) <->
  Exists (fun l => title l = None) (layers (capabilities_of_root root version now)).
Proof.
  rewrite search_loop_err.
  destruct (parsed_catalog_nonempty_strings root version now) as [Hnames _].
  simpl in Hnames |- *.
  induction (collect_layers (findall_desc (wms "Layer") root)) as [|l ls IH].
  - split; intros H; inversion H.
  - inversion Hnames as [|? ? [Hn _] Hrest]; subst.
    rewrite !Exists_cons, IH by exact Hrest.
    destruct (name l); [|discriminate].
    split; [intros [[H|H]|H]; auto; discriminate|intros [H|H]; auto].
Qed.

(** The catalog of the search example: [soil_depth] and [geology]. *)
Definition search_root : element :=
  Element (wms "WMS_Capabilities") [] None
    [Element (wms "Capability") [] None
       [Element (wms "Layer") [] None
          [Element (wms "Name") [] (Some "soil_depth") [];
           Element (wms "Title") [] (Some "Soil Depth Data") []];
        Element (wms "Layer") [("queryable", "1")] None
          [Element (wms "Name") [] (Some "geology") [];
           Element (wms "Title") [] (Some "Bedrock Geology") []]]].

Definition search_client : WMSClient :=
  store_cache new_client (capabilities_of_root search_root "1.3.0" 0) 0.

Lemma search_layers_result_witness :
  exists caps,
    get_capabilities demo_urlopen demo_fromstring search_client "1.3.0" false 1 2 3 =
      ([], Ok caps, search_client) /\
    [mkLayer (Some "soil_depth") (Some "Soil Depth Data") None [] false] =
      filter (layer_matches_spec "DEPTH") (layers caps).
Proof.
  exact (search_layers_result demo_urlopen demo_fromstring search_client search_client "DEPTH"
           [] [mkLayer (Some "soil_depth") (Some "Soil Depth Data") None [] false] 1 2 3
           eq_refl).
Defined.

(** ** The tools of src/server/main.py *)

(** The [list_layers] tool, on the shared client of [get_wms_client]:
    [search_layers] for a truthy query, all the catalog's layers otherwise. *)
Definition list_layers (urlopen : string -> Result bytes) (fromstring : bytes -> Result element)
  (client : WMSClient) (search_query : option string) (now_check now_parse now_store : Z)
  : list string * Result (list Layer) * WMSClient :=
  if truthy search_query then
    search_layers urlopen fromstring client
      (match search_query with Some q => q | None => "" end) now_check now_parse now_store
  else
    let '(requests, result, client') :=
      get_capabilities urlopen fromstring client "1.3.0" false now_check now_parse now_store in
    (requests, capabilities <- result ;; Ok (layers capabilities), client').

Lemma filter_empty_query (ls : list Layer) : filter (layer_matches_spec "") ls = ls.
Proof.
  induction ls as [|l ls IH]; simpl; [reflexivity|].
  unfold layer_matches_spec at 1. simpl str_lower at 1 2 3. rewrite !py_in_empty, IH.
  reflexivity.
Qed.

(** X9: when the [list_layers] tool returns, its result is exactly the
    catalog's layers matching the query case-insensitively, in catalog
    order; with no query or the empty query, every layer of the catalog. *)
Theorem list_layers_result (urlopen : string -> Result bytes)
  (fromstring : bytes -> Result element) (client client' : WMSClient)
  (search_query : option string) (requests : list string) (r : list Layer)
  (now_check now_parse now_store : Z)
  (Hlist : list_layers urlopen fromstring client search_query now_check now_parse now_store =
           (requests, Ok r, client')) :
  exists caps,
    get_capabilities urlopen fromstring client "1.3.0" false now_check now_parse now_store =
      (requests, Ok caps, client') /\
    r = filter (layer_matches_spec (match search_query with Some q => q | None => "" end))
          (layers caps).
Proof.
  revert Hlist. unfold list_layers.
  destruct (truthy search_query) eqn:Hq.
  - apply search_layers_result.
  - assert (Hempty : match search_query with Some q => q | None => "" end = "").
    { destruct search_query as [q|]; [|reflexivity].
      simpl in Hq. destruct (String.eqb_spec q ""); [exact e|discriminate]. }
    rewrite Hempty.
    destruct (get_capabilities urlopen fromstring client "1.3.0" false now_check now_parse
                now_store) as [[reqs [caps|e]] c'].
    + intros H. injection H as <- <- <-. exists caps. split; [reflexivity|].
      symmetry. apply filter_empty_query.
    + discriminate.
Qed.

Lemma list_layers_result_witness :
  exists caps,
    get_capabilities demo_urlopen demo_fromstring demo_client "1.3.0" false 1 2 3 =
      ([], Ok caps, demo_client) /\
    layers demo_caps = filter (layer_matches_spec "") (layers caps).
Proof.
  exact (list_layers_result demo_urlopen demo_fromstring demo_client demo_client None []
           (layers demo_caps) 1 2 3 eq_refl).
Defined.

(** ** [MinimalMCP] (src/server/minimal_mcp.py) *)

Section MinimalMCPServer.

(** The keyword arguments of a call and the values tools return. *)
Variable args value : Type.
(** [isinstance(result, str)]: the string when it is one. *)
Variable as_str : value -> option string.
(** [json.dumps(result, indent=2)], which raises on values it cannot serialize. *)
Variable json_dumps : value -> Result string.
(** [str(e)]. *)
Variable exn_str : py_exn -> string.
(** [func.__doc__]. *)
Variable doc : (args -> Result value) -> option string.

Definition tool_fn := args -> Result value.

Record MinimalMCP : Type := mkMinimalMCP {
  server_name : string;
  tools : dict tool_fn
}.

Definition new_server (nm : string) : MinimalMCP :=
  {| server_name := nm; tools := [] |}.

(** [@server.tool(name)] on a function named [func_name]:
    [self.tools[name or func.__name__] = func]. *)
Definition tool (srv : MinimalMCP) (nm : option string) (func_name : string) (func : tool_fn)
  : MinimalMCP :=
  let tool_name := if truthy nm then match nm with Some n => n | None => "" end
                   else func_name in
  {| server_name := server_name srv; tools := dict_set tool_name func (tools srv) |}.

Inductive response : Type :=
| ToolsList (listed : list (string * string))
| Content (text : string)
| ErrorResult (code : Z) (message : string).

(** [method == s] for a [str] or [None] method. *)
Definition method_is (method : option string) (s : string) : bool :=
  match method with Some m => String.eqb m s | None => false end.

(** A [str] or [None] in an f-string. *)
Definition fmt_opt (o : option string) : string :=
  match o with Some s => s | None => "None" end.

(** [MinimalMCP.handle_request]: [method] is [request.get("method")],
    [tool_name] is [params.get("name")] and [arguments] the call's keyword
    arguments.  [tools/list] lists each tool's name and description (the
    input schema is the same constant for all). *)
Definition handle_request (srv : MinimalMCP) (method tool_name : option string)
  (arguments : args) : response :=
  if method_is method "tools/list" then
    ToolsList (map (fun nf => (fst nf, if truthy (doc (snd nf))
                                       then fmt_opt (doc (snd nf))
                                       else "Tool: " ++ fst nf)) (tools srv))
  else if method_is method "tools/call" then
    match match tool_name with Some n => dict_get n (tools srv) | None => None end with
    | Some func =>
        match (result <- func arguments ;;
               match as_str result with
               | Some s => Ok s
               | None => json_dumps result
               end) with
        | Ok text => Content text
        | Err e => ErrorResult (-1) (exn_str e)
        end
    | None => ErrorResult (-1) ("Tool '" ++ fmt_opt tool_name ++ "' not found")
    end
  else ErrorResult (-1) ("Unknown method: " ++ fmt_opt method).

(** The tool names in order of first registration. *)
Definition add_name (names : list string) (n : string) : list string :=
  if existsb (String.eqb n) names then names else (names ++ [n])%list.

(** The function last registered under [n]. *)
Definition last_registered (n : string) (regs : list (string * tool_fn)) : option tool_fn :=
  fold_left (fun acc nf => if String.eqb (fst nf) n then Some (snd nf) else acc) regs None.

Definition register_all (srv : MinimalMCP) (regs : list (string * tool_fn)) : MinimalMCP :=
  fold_left (fun s nf => tool s None (fst nf) (snd nf)) regs srv.

Lemma dict_set_keys {V} (k : string) (v : V) (d : dict V) :
  map fst (dict_set k v d) = add_name (map fst d) k.
Proof.
  unfold add_name. induction d as [|[k' v'] d IH]; simpl; [reflexivity|].
  destruct (String.eqb_spec k k') as [->|Hne]; simpl; [reflexivity|].
  rewrite IH. destruct (existsb (String.eqb k) (map fst d)); reflexivity.
Qed.

Lemma dict_get_set {V} (k n : string) (v : V) (d : dict V) :
  dict_get n (dict_set k v d) = if String.eqb k n then Some v else dict_get n d.
Proof.
  induction d as [|[k' v'] d IH]; simpl.
  - rewrite String.eqb_sym. reflexivity.
  - destruct (String.eqb_spec k k') as [->|Hne]; simpl.
    + destruct (String.eqb_spec n k'), (String.eqb_spec k' n); congruence.
    + rewrite IH. destruct (String.eqb_spec n k'), (String.eqb_spec k n); congruence.
Qed.

Lemma register_all_tools (srv : MinimalMCP) (regs : list (string * tool_fn)) :
  map fst (tools (register_all srv regs)) = fold_left add_name (map fst regs) (map fst (tools srv)) /\
  (forall n, dict_get n (tools (register_all srv regs)) =
             fold_left (fun acc nf => if String.eqb (fst nf) n then Some (snd nf) else acc)
               regs (dict_get n (tools srv))).
Proof.
  revert srv. induction regs as [|[m f] regs IH]; intros srv; simpl; [split; reflexivity|].
  destruct (IH (tool srv None m f)) as [H1 H2]. split.
  - rewrite H1. simpl. rewrite dict_set_keys. reflexivity.
  - intros n. rewrite H2. simpl. rewrite dict_get_set. reflexivity.
Qed.

(** X10: after the tools [regs] are registered with [@tool()] on a new
    server, [tools/list] lists every registered name once, in order of first
    registration, and [tools/call] of a name runs the function registered
    last under it (its result as text, or [str(e)] with code -1 when it or
    the JSON encoding raises), or answers "Tool '<name>' not found" when no
    function has that name. *)
Theorem registered_tools_dispatch (nm : string) (regs : list (string * tool_fn))
  (tool_name : string) (arguments : args) :
  let srv := register_all (new_server nm) regs in
  map fst (match handle_request srv (Some "tools/list") None arguments with
           | ToolsList listed => listed
           | _ => []
           end) = fold_left add_name (map fst regs) [] /\
  handle_request srv (Some "tools/call") (Some tool_name) arguments =
  match last_registered tool_name regs with
  | Some func =>
      match (result <- func arguments ;;
             match as_str result with Some s => Ok s | None => json_dumps result end) with
      | Ok text => Content text
      | Err e => ErrorResult (-1) (exn_str e)
      end
  | None => ErrorResult (-1) ("Tool '" ++ tool_name ++ "' not found")
  end.
Proof.
  destruct (register_all_tools (new_server nm) regs) as [H1 H2].
  cbv zeta. remember (register_all (new_server nm) regs) as srv eqn:Hsrv.
  clear Hsrv. unfold handle_request. simpl. split.
  - rewrite map_map. simpl. exact H1.
  - rewrite H2. reflexivity.
Qed.

End MinimalMCPServer.
